(** * Intel compiler mixins (mesonbuild/compilers/mixins/intel.py)

    A shallow embedding of the two Intel compiler-family mixins,
    [IntelGnuLikeCompiler] (ICC, POSIX-like flags) and
    [IntelVisualStudioLikeCompiler] (ICL, slash flags), together with the
    fragments of the Python runtime they rely on, and the properties the
    specification states about them. *)

From Stdlib Require Import ZArith Lia Ascii.
From stdpp Require Import base strings list gmap.

Local Open Scope string_scope.
Local Open Scope list_scope.
Local Open Scope stdpp_scope.

(** ** The fragment of the Python runtime used by the mixins *)

Module Py.

(** Exceptions, identified by their class.  [KeyError] and [ValueError]
    are the two builtin exceptions the code of the mixins can raise by
    itself; [Foreign] stands for an exception raised by a collaborator
    (for instance the process runner), known only by its class name. *)
Inductive exn : Type :=
| KeyError (key : string)
| ValueError (msg : string)
| Foreign (cls : string).

Definition exn_class (e : exn) : string :=
  match e with
  | KeyError _ => "KeyError"
  | ValueError _ => "ValueError"
  | Foreign cls => cls
  end.

(** A computation either returns a value or raises. *)
Inductive result (A : Type) : Type :=
| Return (a : A)
| Raise (e : exn).
Arguments Return {A} a.
Arguments Raise {A} e.

Definition bind {A B : Type} (m : result A) (k : A -> result B) : result B :=
  match m with
  | Return a => k a
  | Raise e => Raise e
  end.

Definition returns {A : Type} (m : result A) : bool :=
  match m with Return _ => true | Raise _ => false end.

(** [d[k]] on a dict: a missing key raises [KeyError(k)]. *)
Definition getitem {V : Type} (d : gmap string V) (k : string) : result V :=
  match d !! k with
  | Some v => Return v
  | None => Raise (KeyError k)
  end.

(** Python values as far as keyword arguments of the compile probes
    carry them: [None], strings and (possibly nested) lists. *)
#[warnings="-register-all"] Inductive pyval : Type :=
| PNone
| PStr (s : string)
| PList (items : list pyval).

(** Truth value of an object: [None], the empty string and the empty
    list are false. *)
Definition truthy (v : pyval) : bool :=
  match v with
  | PNone => false
  | PStr s => negb (String.eqb s "")
  | PList [] => false
  | PList (_ :: _) => true
  end.

(** [a or b] *)
Definition py_or (a b : pyval) : pyval := if truthy a then a else b.

(** [kwargs.get(k)] and [kwargs.get(k, default)] *)
Definition dict_get (d : gmap string pyval) (k : string) : pyval :=
  default PNone (d !! k).
Definition dict_get_default (d : gmap string pyval) (k : string) (dflt : pyval) : pyval :=
  default dflt (d !! k).

(** [v != s] for a string literal [s]: an object of another type is
    never equal to a string. *)
Definition ne_str (v : pyval) (s : string) : bool :=
  match v with
  | PStr t => negb (String.eqb t s)
  | _ => true
  end.

(** *** Strings *)

(** [s.split(sep)] for a one-character separator. *)
Fixpoint split (sep : ascii) (s : string) : list string :=
  match s with
  | EmptyString => [""]
  | String c r =>
      if Ascii.eqb c sep then "" :: split sep r
      else match split sep r with
           | h :: t => String c h :: t
           | [] => [String c ""]
           end
  end.

(** [v1, v2, *_ = xs]: at least two values are needed. *)
Definition unpack2_star {A : Type} (xs : list A) : result (A * A) :=
  match xs with
  | v1 :: v2 :: _ => Return (v1, v2)
  | _ => Raise (ValueError "not enough values to unpack (expected at least 2)")
  end.

(** [s.rfind(sep)] for a one-character separator: the highest index
    at which [sep] occurs, or [-1]. *)
Fixpoint rfind (sep : ascii) (s : string) : Z :=
  match s with
  | EmptyString => (-1)%Z
  | String c r =>
      let k := rfind sep r in
      if (0 <=? k)%Z then (k + 1)%Z
      else if Ascii.eqb c sep then 0%Z else (-1)%Z
  end.

(** [s[n:]] for [n >= 0]. *)
Fixpoint drop_chars (n : nat) (s : string) : string :=
  match n, s with
  | O, _ => s
  | S n', String _ r => drop_chars n' r
  | S _, EmptyString => ""
  end.

(** [os.path.basename] of [posixpath]:
    [i = p.rfind('/') + 1; return p[i:]]. *)
Definition basename (p : string) : string :=
  let i := (rfind "/" p + 1)%Z in
  drop_chars (Z.to_nat i) p.

(** [os.path.join] with a single component returns it as it is. *)
Definition path_join1 (a : string) : string := a.

(** *** [int(s)] on text

    The model covers ASCII text and the literal syntax of Python 3.6
    and later: surrounding whitespace (the space and the characters
    9 to 13: tab, line feed, vertical tab, form feed, carriage return)
    is stripped, one sign is allowed, and the decimal digits may be
    grouped by single underscores.  Anything else raises
    [ValueError]. *)

Definition is_space (c : ascii) : bool :=
  let n := nat_of_ascii c in
  (n =? 32)%nat || ((9 <=? n)%nat && (n <=? 13)%nat).

Definition digit_value (c : ascii) : option Z :=
  let n := nat_of_ascii c in
  if ((48 <=? n)%nat && (n <=? 57)%nat) then Some (Z.of_nat (n - 48)) else None.

Fixpoint lstrip (s : string) : string :=
  match s with
  | String c r => if is_space c then lstrip r else s
  | EmptyString => ""
  end.

Fixpoint rstrip (s : string) : string :=
  match s with
  | String c r =>
      match rstrip r with
      | EmptyString => if is_space c then "" else String c ""
      | r' => String c r'
      end
  | EmptyString => ""
  end.

Definition strip (s : string) : string := rstrip (lstrip s).

(** Digits with optional single underscores between them;
    [after_digit] tells whether the previous character was a digit. *)
Fixpoint digits (s : string) (acc : Z) (after_digit : bool) : option Z :=
  match s with
  | EmptyString => if after_digit then Some acc else None
  | String c r =>
      match digit_value c with
      | Some d => digits r (10 * acc + d)%Z true
      | None =>
          if Ascii.eqb c "_" && after_digit then digits r acc false
          else None
      end
  end.

Definition int (s : string) : result Z :=
  let t := strip s in
  let parsed :=
    match t with
    | String "+" r => digits r 0%Z false
    | String "-" r => Z.opp <$> digits r 0%Z false
    | _ => digits t 0%Z false
    end in
  match parsed with
  | Some z => Return z
  | None => Raise (ValueError "invalid literal for int() with base 10")
  end.

(** *** List objects in the store

    Lists are mutable objects: a variable holds a reference, [copy]
    allocates a new object and [extend] updates one in place. *)

Definition loc : Type := positive.
Abbreviation store := (gmap loc (list string)).

Definition alloc (h : store) (xs : list string) : loc * store :=
  let l := fresh (dom h) in (l, <[l := xs]> h).

(** [l.copy()]; [None] only for a reference that is not in the store,
    which no Python program can hold. *)
Definition list_copy (h : store) (l : loc) : option (loc * store) :=
  xs ← h !! l; Some (alloc h xs).

(** [l.extend(ys)] *)
Definition list_extend (h : store) (l : loc) (ys : list string) : option store :=
  xs ← h !! l; Some (<[l := xs ++ ys]> h).

End Py.

Import Py.

Notation "'let*' x ':=' m 'in' k" := (Py.bind m (fun x => k))
  (at level 10, x pattern, m at level 100, k at level 200).

(** ** mesonlib *)

Module Mesonlib.

(** Modelled from the spec: a component of a "dotted numeric version",
    a non-empty run of decimal digits (the code of
    [mesonlib.version_compare] and of its helpers is not among the
    sources). *)
Fixpoint number (s : string) (acc : Z) (seen : bool) : option Z :=
  match s with
  | EmptyString => if seen then Some acc else None
  | String c r =>
      match digit_value c with
      | Some d => number r (10 * acc + d)%Z true
      | None => None
      end
  end.

(** Modelled from the spec: a "dotted numeric version" read as the list
    of its dot-separated components; [None] for any other text. *)
Definition parse_version (s : string) : option (list Z) :=
  mapM (fun c => number c 0%Z false) (split "." s).

(** Modelled from the spec: the order of versions, component by
    component from the left; a version that is a proper prefix of
    another one is the smaller of the two. *)
Fixpoint version_cmp (a b : list Z) : comparison :=
  match a, b with
  | [], [] => Eq
  | [], _ :: _ => Lt
  | _ :: _, [] => Gt
  | x :: a', y :: b' =>
      match (x ?= y)%Z with
      | Eq => version_cmp a' b'
      | c => c
      end
  end.

(** Modelled from the spec: the comparison operators of a constraint
    such as [>=15.0.0]. *)
Inductive cmp_op : Type := OpGe | OpLe | OpNe | OpEq | OpGt | OpLt.

(** Modelled from the spec: a constraint is an operator followed by a
    version; without an operator the constraint asks for equality. *)
Definition split_operator (constraint : string) : cmp_op * string :=
  match constraint with
  | String ">" (String "=" r) => (OpGe, r)
  | String "<" (String "=" r) => (OpLe, r)
  | String "!" (String "=" r) => (OpNe, r)
  | String "=" (String "=" r) => (OpEq, r)
  | String "=" r => (OpEq, r)
  | String ">" r => (OpGt, r)
  | String "<" r => (OpLt, r)
  | r => (OpEq, r)
  end.

(** Modelled from the spec: whether an operator accepts the outcome of
    a comparison; [>=] is "inclusive-at-threshold". *)
Definition holds (op : cmp_op) (c : comparison) : bool :=
  match op, c with
  | OpGe, (Eq | Gt) | OpLe, (Eq | Lt) | OpNe, (Lt | Gt)
  | OpEq, Eq | OpGt, Gt | OpLt, Lt => true
  | _, _ => false
  end.

(** Modelled from the spec: [mesonlib.version_compare], the "compare
    version strings" utility, which is not among the sources: does the
    version [vstr1] satisfy the constraint [vstr2]?  Text that is not a
    dotted numeric version satisfies no constraint. *)
Definition version_compare (vstr1 vstr2 : string) : bool :=
  let '(op, v2) := split_operator vstr2 in
  match parse_version vstr1, parse_version v2 with
  | Some a, Some b => holds op (version_cmp a b)
  | _, _ => false
  end.

End Mesonlib.

(** ** The compiler object

    The attributes of [self] the mixins read or set. *)

Record compiler : Type := Compiler {
  version : string;
  base_options : list string;
  id : string;
  lang_header : string;
}.

(** ** IntelGnuLikeCompiler *)

Module IntelGnuLikeCompiler.

Definition BUILD_ARGS : gmap string (list string) :=
  list_to_map
    [ ("plain", []);
      ("debug", ["-g"; "-traceback"]);
      ("debugoptimized", ["-g"; "-traceback"]);
      ("release", []);
      ("minsize", []);
      ("custom", []) ].

Definition OPTIM_ARGS : gmap string (list string) :=
  list_to_map
    [ ("0", ["-O0"]);
      ("g", ["-O0"]);
      ("1", ["-O1"]);
      ("2", ["-O2"]);
      ("3", ["-O3"]);
      ("s", ["-Os"]) ].

(** [__init__(self)]: [super().__init__()], then the three
    assignments.  [super_init] is the initialiser of the base class,
    as an update of the object. *)
Definition init (super_init : compiler -> compiler) (self : compiler) : compiler :=
  let self := super_init self in
  {| version := version self;
     base_options := ["b_pch"; "b_lundef"; "b_asneeded"; "b_pgo";
                      "b_coverage"; "b_ndebug"; "b_staticpic"; "b_pie"];
     id := "intel";
     lang_header := "none" |}.

Definition get_pch_suffix : string := "pchi".

Definition get_pch_use_args (self : compiler) (pch_dir header : string) : list string :=
  ["-pch"; "-pch_dir"; path_join1 pch_dir; "-x";
   lang_header self; "-include"; header; "-x"; "none"].

Definition get_pch_name (header_name : string) : string :=
  basename header_name +:+ "." +:+ get_pch_suffix.

Definition openmp_flags (self : compiler) : list string :=
  if Mesonlib.version_compare (version self) ">=15.0.0"
  then ["-qopenmp"]
  else ["-openmp"].

(** The tokens [compiles] puts after the caller's extra arguments. *)
Definition diag_error_args : list string :=
  [ "-diag-error"; "10006";
    "-diag-error"; "10148";
    "-diag-error"; "10155";
    "-diag-error"; "10156";
    "-diag-error"; "10157";
    "-diag-error"; "10158";
    "-diag-error"; "1292" ].

(** [compiles(self, *args, **kwargs)]; [super_compiles] is the probe of
    the base class the call is delegated to. *)
Definition compiles {R : Type}
    (super_compiles : list pyval -> gmap string pyval -> R)
    (args : list pyval) (kwargs : gmap string pyval) : R :=
  let extra_args := py_or (dict_get kwargs "extra_args") (PList []) in
  let kwargs :=
    <["extra_args" := PList (extra_args :: (PStr <$> diag_error_args))]> kwargs in
  super_compiles args kwargs.

Definition get_profile_generate_args : list string := ["-prof-gen=threadsafe"].

Definition get_profile_use_args : list string := ["-prof-use"].

Definition get_buildtype_args (buildtype : string) : result (list string) :=
  getitem BUILD_ARGS buildtype.

Definition get_optimization_args (optimization_level : string) : result (list string) :=
  getitem OPTIM_ARGS optimization_level.

End IntelGnuLikeCompiler.

(** ** IntelVisualStudioLikeCompiler *)

Module IntelVisualStudioLikeCompiler.

Definition BUILD_ARGS : gmap string (list string) :=
  list_to_map
    [ ("plain", []);
      ("debug", ["/Zi"; "/traceback"]);
      ("debugoptimized", ["/Zi"; "/traceback"]);
      ("release", []);
      ("minsize", []);
      ("custom", []) ].

Definition OPTIM_ARGS : gmap string (list string) :=
  list_to_map
    [ ("0", ["/O0"]);
      ("g", ["/O0"]);
      ("1", ["/O1"]);
      ("2", ["/O2"]);
      ("3", ["/O3"]);
      ("s", ["/Os"]) ].

(** [__init__(self, target)]: [super().__init__(target)], then the
    assignment of the id.  [super_init] is the initialiser of the base
    class, as an update of the object. *)
Definition init (super_init : string -> compiler -> compiler)
    (target : string) (self : compiler) : compiler :=
  let self := super_init target self in
  {| version := version self;
     base_options := base_options self;
     id := "intel-cl";
     lang_header := lang_header self |}.

(** The flags [compile] extends the extra arguments with. *)
Definition diag_error_args : list string :=
  [ "/Qdiag-error:10006";
    "/Qdiag-error:10148";
    "/Qdiag-error:10155";
    "/Qdiag-error:10156";
    "/Qdiag-error:10157";
    "/Qdiag-error:10158" ].

(** [compile(self, code, *, extra_args=None, **kwargs)].  [extra_args]
    is [None] or a reference to a list object of the store [h];
    [super_compile] is the method of the base class, which receives
    the store as this method leaves it.  The result is [None] only for
    a reference that is not in the store. *)
Definition compile {Code R : Type}
    (super_compile : store -> Code -> option loc -> gmap string pyval -> R)
    (h : store) (code : Code) (extra_args : option loc)
    (kwargs : gmap string pyval) : option R :=
  if ne_str (dict_get_default kwargs "mode" (PStr "compile")) "link" then
    '(l, h) ← match extra_args with
              | Some l0 => list_copy h l0
              | None => Some (alloc h [])
              end;
    h ← list_extend h l diag_error_args;
    Some (super_compile h code (Some l) kwargs)
  else
    Some (super_compile h code extra_args kwargs).

Section ToolsetVersion.

(** The collaborators of [get_toolset_version]:
    [mesonlib.Popen_safe], which runs a command and returns the
    process with its captured output and error text (or raises, for
    instance when the binary is missing), [environment.search_version]
    and the inherited [_calculate_toolset_version]. *)
Context {Popen : Type}.
Variable Popen_safe : list string -> result (Popen * string * string).
Variable search_version : string -> string.
Variable _calculate_toolset_version : Z -> option string.

Definition get_toolset_version : result (option string) :=
  let* (_, _, err) := Popen_safe ["cl.exe"] in
  let* (v1, v2) := unpack2_star (split "." (search_version err)) in
  let* version := int (v1 +:+ v2) in
  Return (_calculate_toolset_version version).

End ToolsetVersion.

Definition openmp_flags : list string := ["/Qopenmp"].

Definition get_buildtype_args (buildtype : string) : result (list string) :=
  getitem BUILD_ARGS buildtype.

Definition get_optimization_args (optimization_level : string) : result (list string) :=
  getitem OPTIM_ARGS optimization_level.

End IntelVisualStudioLikeCompiler.

Module Gnu := IntelGnuLikeCompiler.
Module VS := IntelVisualStudioLikeCompiler.

(** The closed key sets of the data model. *)
Definition BuildTypeKeys : list string :=
  ["plain"; "debug"; "debugoptimized"; "release"; "minsize"; "custom"].
Definition OptimizationLevelKeys : list string :=
  ["0"; "g"; "1"; "2"; "3"; "s"].

(** The string tokens of an extra-arguments value, from left to right;
    [None] carries no token. *)
Fixpoint tokens (v : pyval) : list string :=
  match v with
  | PNone => []
  | PStr s => [s]
  | PList items => concat (map tokens items)
  end.

(** What [compile] of the Windows-like adapter hands to the base class:
    the store, the code, the extra-arguments reference and the keyword
    arguments of the delegated call. *)
Definition compile_call {Code : Type} (h : store) (code : Code)
    (extra_args : option loc) (kwargs : gmap string pyval)
    : option (store * Code * option loc * gmap string pyval) :=
  VS.compile (fun h' code' extra_args' kwargs' => (h', code', extra_args', kwargs'))
             h code extra_args kwargs.

(** The elements of the extra arguments a reference stands for in a
    store: those of the list it points to, and none for [None]. *)
Definition extra_args_elements (h : store) (extra_args : option loc) : list string :=
  match extra_args with
  | Some l => default [] (h !! l)
  | None => []
  end.

(** What [compiles] of the POSIX-like adapter hands to the base class
    as [extra_args]. *)
Definition compiles_extra_args (args : list pyval) (kwargs : gmap string pyval)
    : option pyval :=
  Gnu.compiles (fun _ kwargs' => kwargs' !! "extra_args") args kwargs.

(** Collaborators for concrete runs of [get_toolset_version]: a runner
    that answers with a given error text, a runner whose binary is
    missing, a version parser that finds a given version, and a toolset
    calculation. *)
Definition runner_with_banner (err : string)
    : list string -> result (unit * string * string) :=
  fun _ => Return (tt, "", err).
Definition runner_missing_binary : list string -> result (unit * string * string) :=
  fun _ => Raise (Foreign "FileNotFoundError").
Definition search_finds (found : string) : string -> string := fun _ => found.
Definition toolset_of (v : Z) : option string :=
  if (v <? 1920)%Z then Some "14.1" else Some "14.2".

(** What [compiles] of the POSIX-like adapter hands to the base class:
    the positional and the keyword arguments of the delegated call. *)
Definition compiles_call (args : list pyval) (kwargs : gmap string pyval)
    : list pyval * gmap string pyval :=
  Gnu.compiles (fun args' kwargs' => (args', kwargs')) args kwargs.

(** Does a flag start with the character [c]? *)
Definition starts_with (c : ascii) (flag : string) : bool :=
  match flag with
  | String c' _ => Ascii.eqb c' c
  | EmptyString => false
  end.

(** A POSIX-like flag respelled with a slash for its dash. *)
Definition to_slash (flag : string) : string :=
  match flag with
  | String "-" r => String "/" r
  | _ => flag
  end.

(** Text made of decimal digits only, and the number it denotes
    (continuing from [acc]). *)
Fixpoint all_digits (s : string) : bool :=
  match s with
  | EmptyString => true
  | String c r => bool_decide (is_Some (digit_value c)) && all_digits r
  end.

Fixpoint decimal (s : string) (acc : Z) : Z :=
  match s with
  | EmptyString => acc
  | String c r => decimal r (10 * acc + default 0%Z (digit_value c))%Z
  end.

(** * Properties *)

(** Decidable side conditions on concrete data are settled by evaluation. *)
Ltac by_evaluation := apply (bool_decide_unpack _); vm_compute; exact I.

(** ** Flag tables *)

Section Getitem.
Context {V : Type}.
Implicit Types (d : gmap string V) (k : string).

Lemma getitem_Some d k v : d !! k = Some v -> getitem d k = Return v.
Proof. unfold getitem. by intros ->. Qed.

Lemma getitem_None d k : d !! k = None -> getitem d k = Raise (KeyError k).
Proof. unfold getitem. by intros ->. Qed.

Lemma getitem_list_to_map_absent (kvs : list (string * V)) k :
  k ∉ kvs.*1 -> getitem (list_to_map kvs : gmap string V) k = Raise (KeyError k).
Proof. intros Hk. by apply getitem_None, not_elem_of_list_to_map_1. Qed.

Lemma getitem_raises_class d k e : getitem d k = Raise e -> exn_class e = "KeyError".
Proof. unfold getitem. destruct (d !! k); [done|]. by intros [= <-]. Qed.
End Getitem.

(** The keys of the four tables are the keys of the data model. *)
Lemma table_keys :
  dom Gnu.BUILD_ARGS = list_to_set BuildTypeKeys /\
  dom VS.BUILD_ARGS = list_to_set BuildTypeKeys /\
  dom Gnu.OPTIM_ARGS = list_to_set OptimizationLevelKeys /\
  dom VS.OPTIM_ARGS = list_to_set OptimizationLevelKeys.
Proof.
  unfold Gnu.BUILD_ARGS, VS.BUILD_ARGS, Gnu.OPTIM_ARGS, VS.OPTIM_ARGS.
  rewrite !dom_list_to_map_L. done.
Qed.

(** C5 (as stated, refuted).  The unrecognised build type ["bogus"]
    makes [get_buildtype_args] of the POSIX-like adapter raise the
    [KeyError] of the dict access, not a [ConfigurationError]. *)
Lemma unknown_key_is_not_ConfigurationError :
  Gnu.get_buildtype_args "bogus" = Raise (KeyError "bogus") /\
  exn_class (KeyError "bogus") <> "ConfigurationError".
Proof. split; [by vm_compute | discriminate]. Qed.

(** C5 (amended).  For a build type outside the six build-type keys and
    an optimization level outside the six optimization-level keys,
    [get_buildtype_args] and [get_optimization_args] of both adapters
    raise the [KeyError] of the dict access, carrying the offending key;
    no default or empty flag list is returned. *)
Theorem unknown_key_raises_KeyError (buildtype optimization_level : string)
    (Hbt : buildtype ∉ BuildTypeKeys)
    (Hol : optimization_level ∉ OptimizationLevelKeys) :
  Gnu.get_buildtype_args buildtype = Raise (KeyError buildtype) /\
  VS.get_buildtype_args buildtype = Raise (KeyError buildtype) /\
  Gnu.get_optimization_args optimization_level = Raise (KeyError optimization_level) /\
  VS.get_optimization_args optimization_level = Raise (KeyError optimization_level).
Proof.
  repeat split; by apply getitem_list_to_map_absent.
Qed.

Lemma unknown_key_raises_KeyError_witness :
  ("bogus" ∉ BuildTypeKeys) /\ ("9" ∉ OptimizationLevelKeys) /\
  Gnu.get_buildtype_args "bogus" = Raise (KeyError "bogus") /\
  VS.get_optimization_args "9" = Raise (KeyError "9").
Proof.
  assert (Hbt : "bogus" ∉ BuildTypeKeys) by by_evaluation.
  assert (Hol : "9" ∉ OptimizationLevelKeys) by by_evaluation.
  pose proof (unknown_key_raises_KeyError "bogus" "9" Hbt Hol) as (H1 & _ & _ & H4).
  exact (conj Hbt (conj Hol (conj H1 H4))).
Defined.

(** C6.  For each of the six build-type keys and each of the six
    optimization-level keys, [get_buildtype_args] and
    [get_optimization_args] of both adapters return a flag list; the
    [KeyError] branch of the lookup is not taken. *)
Theorem known_keys_return_flags (buildtype optimization_level : string)
    (Hbt : buildtype ∈ BuildTypeKeys)
    (Hol : optimization_level ∈ OptimizationLevelKeys) :
  (exists flags, Gnu.get_buildtype_args buildtype = Return flags) /\
  (exists flags, VS.get_buildtype_args buildtype = Return flags) /\
  (exists flags, Gnu.get_optimization_args optimization_level = Return flags) /\
  (exists flags, VS.get_optimization_args optimization_level = Return flags).
Proof.
  unfold BuildTypeKeys in Hbt. unfold OptimizationLevelKeys in Hol.
  repeat (apply elem_of_cons in Hbt as [-> | Hbt]);
    [ | | | | | | by apply elem_of_nil in Hbt ];
    (repeat (apply elem_of_cons in Hol as [-> | Hol]);
      [ | | | | | | by apply elem_of_nil in Hol ]);
    repeat split; eexists; vm_compute; reflexivity.
Qed.

Lemma known_keys_return_flags_witness :
  ("minsize" ∈ BuildTypeKeys) /\ ("s" ∈ OptimizationLevelKeys) /\
  (exists flags, Gnu.get_buildtype_args "minsize" = Return flags) /\
  (exists flags, VS.get_optimization_args "s" = Return flags).
Proof.
  assert (Hbt : "minsize" ∈ BuildTypeKeys) by by_evaluation.
  assert (Hol : "s" ∈ OptimizationLevelKeys) by by_evaluation.
  pose proof (known_keys_return_flags "minsize" "s" Hbt Hol) as (H1 & _ & _ & H4).
  exact (conj Hbt (conj Hol (conj H1 H4))).
Defined.

(** C10.  In both adapters ['debug'] and ['debugoptimized'] resolve to
    the same flag list, and ['0'] and ['g'] resolve to the same flag
    list, which is [['-O0']] for the POSIX-like adapter and [['/O0']]
    for the Windows-like one. *)
Theorem aliased_keys_share_flags :
  Gnu.get_buildtype_args "debug" = Gnu.get_buildtype_args "debugoptimized" /\
  VS.get_buildtype_args "debug" = VS.get_buildtype_args "debugoptimized" /\
  Gnu.get_optimization_args "0" = Return ["-O0"] /\
  Gnu.get_optimization_args "g" = Return ["-O0"] /\
  VS.get_optimization_args "0" = Return ["/O0"] /\
  VS.get_optimization_args "g" = Return ["/O0"] /\
  Gnu.get_optimization_args "0" = Gnu.get_optimization_args "g" /\
  VS.get_optimization_args "0" = VS.get_optimization_args "g".
Proof. repeat split; by vm_compute. Qed.

(** ** Precompiled-header naming *)

Section Basename.
Implicit Types (p d n : string) (c sep : ascii).

Lemma rfind_lower sep p : (-1 <= rfind sep p)%Z.
Proof.
  induction p as [|c r IH]; simpl; [lia|].
  destruct (0 <=? rfind sep r)%Z; [lia|]. destruct (Ascii.eqb c sep); lia.
Qed.

Lemma rfind_at_sep sep p : (0 <= rfind sep (String sep p))%Z.
Proof.
  simpl. destruct (0 <=? rfind sep p)%Z eqn:E.
  - apply Z.leb_le in E. lia.
  - rewrite Ascii.eqb_refl. lia.
Qed.

Lemma rfind_app_sep sep d n : (0 <= rfind sep (d +:+ String sep n))%Z.
Proof.
  induction d as [|c d IH]; [apply rfind_at_sep|].
  change (String c d +:+ String sep n) with (String c (d +:+ String sep n)).
  simpl. apply Z.leb_le in IH. rewrite IH. apply Z.leb_le in IH. lia.
Qed.

(** A character in front of a path that has a slash does not change
    the base name. *)
Lemma basename_cons c p : (0 <= rfind "/" p)%Z -> basename (String c p) = basename p.
Proof.
  intros H. unfold basename. simpl rfind.
  apply Z.leb_le in H. rewrite H. apply Z.leb_le in H.
  replace (Z.to_nat (rfind "/" p + 1 + 1)) with (S (Z.to_nat (rfind "/" p + 1))) by lia.
  reflexivity.
Qed.

Lemma basename_slash p : basename (String "/" p) = basename p.
Proof.
  destruct (Z.le_gt_cases 0 (rfind "/" p)) as [H|H]; [by apply basename_cons|].
  pose proof (rfind_lower "/" p) as Hl.
  assert (E : rfind "/" p = (-1)%Z) by lia.
  unfold basename. simpl rfind. rewrite E. reflexivity.
Qed.

Lemma basename_join d n : basename (d +:+ String "/" n) = basename n.
Proof.
  induction d as [|c d IH]; [apply basename_slash|].
  change (String c d +:+ String "/" n) with (String c (d +:+ String "/" n)).
  rewrite basename_cons; [exact IH | apply rfind_app_sep].
Qed.
End Basename.

(** C8.  [get_pch_name] depends on the header name only: it is the base
    name of the header followed by ['.'] and the suffix of
    [get_pch_suffix], which is ['pchi'].  So ["foo.h"] gives
    ["foo.h.pchi"], and a directory in front of a header does not change
    the result. *)
Theorem get_pch_name_basename :
  Gnu.get_pch_suffix = "pchi" /\
  (forall header_name,
     Gnu.get_pch_name header_name
     = basename header_name +:+ "." +:+ Gnu.get_pch_suffix) /\
  Gnu.get_pch_name "foo.h" = "foo.h.pchi" /\
  (forall dir header_name,
     Gnu.get_pch_name (dir +:+ "/" +:+ header_name) = Gnu.get_pch_name header_name) /\
  (forall dir, Gnu.get_pch_name (dir +:+ "/" +:+ "foo.h") = "foo.h.pchi").
Proof.
  assert (Hdir : forall dir header_name,
     Gnu.get_pch_name (dir +:+ "/" +:+ header_name) = Gnu.get_pch_name header_name).
  { intros dir header_name. unfold Gnu.get_pch_name.
    change ("/" +:+ header_name) with (String "/" header_name).
    by rewrite basename_join. }
  split; [reflexivity|]. split; [reflexivity|]. split; [reflexivity|].
  split; [exact Hdir|].
  intros dir. by rewrite Hdir.
Qed.

(** ** OpenMP flag *)

Lemma version_compare_ge_15 v :
  Mesonlib.version_compare v ">=15.0.0"
  = match Mesonlib.parse_version v with
    | Some a => Mesonlib.holds Mesonlib.OpGe (Mesonlib.version_cmp a [15; 0; 0]%Z)
    | None => false
    end.
Proof. reflexivity. Qed.

(** C7.  For a compiler whose version is the dotted numeric version
    [ns]: below 15.0.0 [openmp_flags] of the POSIX-like adapter is the
    legacy [['-openmp']], at 15.0.0 or above it is [['-qopenmp']]; in
    particular 14.9.9 gives the legacy and 15.0.0 itself the modern
    spelling.  The Windows-like adapter answers [['/Qopenmp']] whatever
    the version. *)
Theorem openmp_flags_threshold (self : compiler) (ns : list Z)
    (Hv : Mesonlib.parse_version (version self) = Some ns) :
  (Mesonlib.version_cmp ns [15; 0; 0]%Z = Lt -> Gnu.openmp_flags self = ["-openmp"]) /\
  (Mesonlib.version_cmp ns [15; 0; 0]%Z <> Lt -> Gnu.openmp_flags self = ["-qopenmp"]) /\
  (version self = "14.9.9" -> Gnu.openmp_flags self = ["-openmp"]) /\
  (version self = "15.0.0" -> Gnu.openmp_flags self = ["-qopenmp"]) /\
  VS.openmp_flags = ["/Qopenmp"].
Proof.
  unfold Gnu.openmp_flags. rewrite version_compare_ge_15.
  repeat split.
  - rewrite Hv. by intros ->.
  - rewrite Hv. by destruct (Mesonlib.version_cmp ns _).
  - by intros ->.
  - by intros ->.
Qed.

Lemma openmp_flags_threshold_witness :
  Mesonlib.parse_version "14.9.9" = Some [14; 9; 9]%Z /\
  Mesonlib.version_cmp [14; 9; 9]%Z [15; 0; 0]%Z = Lt /\
  Gnu.openmp_flags (Compiler "14.9.9" [] "intel" "none") = ["-openmp"].
Proof.
  assert (Hv : Mesonlib.parse_version (version (Compiler "14.9.9" [] "intel" "none"))
               = Some [14; 9; 9]%Z) by reflexivity.
  pose proof (openmp_flags_threshold _ _ Hv) as (H & _).
  exact (conj Hv (conj eq_refl (H eq_refl))).
Defined.

(** ** Toolset version *)

Lemma int_raises_ValueError s e : int s = Raise e -> exn_class e = "ValueError".
Proof.
  unfold int.
  destruct (match strip s with
            | String "+" r => digits r 0%Z false
            | String "-" r => Z.opp <$> digits r 0%Z false
            | _ => digits (strip s) 0%Z false
            end); [done|].
  by intros [= <-].
Qed.

Lemma unpack2_star_short {A : Type} (xs : list A) :
  length xs < 2 ->
  unpack2_star xs = Raise (ValueError "not enough values to unpack (expected at least 2)").
Proof. destruct xs as [|? [|? ?]]; simpl; [done | done | lia]. Qed.

Lemma unpack2_star_raises {A : Type} (xs : list A) e :
  unpack2_star xs = Raise e -> exn_class e = "ValueError" /\ length xs < 2.
Proof. destruct xs as [|? [|? ?]]; simpl; intros [= <-]; split; (done || lia). Qed.

Section ToolsetVersion.
Context {Popen : Type}.
Variable Popen_safe : list string -> result (Popen * string * string).
Variable search_version : string -> string.
Variable _calculate_toolset_version : Z -> option string.

Abbreviation get_toolset_version :=
  (VS.get_toolset_version Popen_safe search_version _calculate_toolset_version).

(** The runner's exception propagates as it is. *)
Lemma get_toolset_version_runner_raises e :
  Popen_safe ["cl.exe"] = Raise e -> get_toolset_version = Raise e.
Proof. unfold VS.get_toolset_version. by intros ->. Qed.

(** With a banner, the outcome is decided by the version string. *)
Lemma get_toolset_version_banner p out err :
  Popen_safe ["cl.exe"] = Return (p, out, err) ->
  get_toolset_version
  = let* (v1, v2) := unpack2_star (split "." (search_version err)) in
    let* version := int (v1 +:+ v2) in
    Return (_calculate_toolset_version version).
Proof. unfold VS.get_toolset_version. by intros ->. Qed.

(** A value is returned only through the toolset calculation, on the
    integer read from the first two components. *)
Lemma get_toolset_version_returns v :
  get_toolset_version = Return v ->
  exists p out err v1 v2 rest z,
    Popen_safe ["cl.exe"] = Return (p, out, err) /\
    split "." (search_version err) = v1 :: v2 :: rest /\
    int (v1 +:+ v2) = Return z /\
    v = _calculate_toolset_version z.
Proof.
  unfold VS.get_toolset_version.
  destruct (Popen_safe ["cl.exe"]) as [[[p out] err]|e] eqn:Hrun; [|done].
  simpl. destruct (split "." (search_version err)) as [|v1 [|v2 rest]] eqn:Hs;
    simpl; [done | done |].
  destruct (int (v1 +:+ v2)) as [z|e] eqn:Hz; simpl; [|done].
  intros [= <-]. by exists p, out, err, v1, v2, rest, z.
Qed.

(** Every failure is the runner's, or a [ValueError]. *)
Lemma get_toolset_version_raises e :
  get_toolset_version = Raise e ->
  Popen_safe ["cl.exe"] = Raise e \/ exn_class e = "ValueError".
Proof.
  unfold VS.get_toolset_version.
  destruct (Popen_safe ["cl.exe"]) as [[[p out] err]|e'] eqn:Hrun;
    [|intros [= <-]; by left].
  simpl. intros H. right.
  destruct (unpack2_star (split "." (search_version err))) as [[v1 v2]|e'] eqn:Hu.
  - simpl in H. destruct (int (v1 +:+ v2)) as [z|e'] eqn:Hz; simpl in H; [done|].
    injection H as <-. by eapply int_raises_ValueError.
  - simpl in H. injection H as <-. by eapply unpack2_star_raises.
Qed.
End ToolsetVersion.

(** C3.  When the runner returns a banner from which the version parser
    extracts ["19.16.27034"], the first two components are ["19"] and
    ["16"], their concatenation reads as the integer 1916, and
    [get_toolset_version] returns what [_calculate_toolset_version]
    gives for 1916. *)
Theorem get_toolset_version_19_16 {Popen : Type}
    (Popen_safe : list string -> result (Popen * string * string))
    (search_version : string -> string)
    (_calculate_toolset_version : Z -> option string)
    (p : Popen) (out err : string)
    (Hrun : Popen_safe ["cl.exe"] = Return (p, out, err))
    (Hver : search_version err = "19.16.27034") :
  unpack2_star (split "." (search_version err)) = Return ("19", "16") /\
  int ("19" +:+ "16") = Return 1916%Z /\
  VS.get_toolset_version Popen_safe search_version _calculate_toolset_version
  = Return (_calculate_toolset_version 1916%Z).
Proof.
  rewrite (get_toolset_version_banner _ _ _ _ _ _ Hrun), Hver.
  by repeat split.
Qed.

Lemma get_toolset_version_19_16_witness :
  VS.get_toolset_version
    (runner_with_banner "Compiler Version 19.16.27034 for x64")
    (search_finds "19.16.27034") toolset_of
  = Return (Some "14.1").
Proof.
  exact (proj2 (proj2 (get_toolset_version_19_16
                         (runner_with_banner "Compiler Version 19.16.27034 for x64")
                         (search_finds "19.16.27034") toolset_of
                         tt "" _ eq_refl eq_refl))).
Defined.

(** C4 (as stated, refuted).  With a banner in which the version parser
    finds nothing dotted, the unpacking of the components raises
    [ValueError]; with a runner that raises [FileNotFoundError], that
    exception comes out.  Neither is a [ToolchainDetectionError]. *)
Lemma toolset_failure_is_not_ToolchainDetectionError :
  (exists e, VS.get_toolset_version (runner_with_banner "usage: cl [ option... ]")
               (search_finds "unknown version") toolset_of = Raise e /\
             exn_class e = "ValueError" /\
             exn_class e <> "ToolchainDetectionError") /\
  (exists e, VS.get_toolset_version runner_missing_binary
               (search_finds "unknown version") toolset_of = Raise e /\
             exn_class e = "FileNotFoundError" /\
             exn_class e <> "ToolchainDetectionError").
Proof.
  split; eexists; (split; [reflexivity|]); (split; [reflexivity | discriminate]).
Qed.

(** C4 (amended).  [get_toolset_version] fails, without returning any
    value, in each of these cases: when the runner raises, with the
    runner's own exception; when the version string has fewer than two
    dot-separated components, with [ValueError]; when the first two
    components do not concatenate to an integer literal, with the
    [ValueError] of [int].  It has no other failure, and a value it
    returns is the toolset calculation of the integer so read. *)
Theorem get_toolset_version_failures {Popen : Type}
    (Popen_safe : list string -> result (Popen * string * string))
    (search_version : string -> string)
    (_calculate_toolset_version : Z -> option string) :
  let gtv := VS.get_toolset_version Popen_safe search_version _calculate_toolset_version in
  (forall e, Popen_safe ["cl.exe"] = Raise e -> gtv = Raise e) /\
  (forall p out err, Popen_safe ["cl.exe"] = Return (p, out, err) ->
     length (split "." (search_version err)) < 2 ->
     exists e, gtv = Raise e /\ exn_class e = "ValueError") /\
  (forall p out err v1 v2 rest e, Popen_safe ["cl.exe"] = Return (p, out, err) ->
     split "." (search_version err) = v1 :: v2 :: rest ->
     int (v1 +:+ v2) = Raise e ->
     gtv = Raise e /\ exn_class e = "ValueError") /\
  (forall e, gtv = Raise e ->
     Popen_safe ["cl.exe"] = Raise e \/ exn_class e = "ValueError") /\
  (forall v, gtv = Return v ->
     exists p out err v1 v2 rest z,
       Popen_safe ["cl.exe"] = Return (p, out, err) /\
       split "." (search_version err) = v1 :: v2 :: rest /\
       int (v1 +:+ v2) = Return z /\
       v = _calculate_toolset_version z).
Proof.
  intros gtv. subst gtv. repeat apply conj.
  - apply get_toolset_version_runner_raises.
  - intros p out err Hrun Hlen.
    rewrite (get_toolset_version_banner _ _ _ _ _ _ Hrun), (unpack2_star_short _ Hlen).
    by eexists.
  - intros p out err v1 v2 rest e Hrun Hs Hz.
    rewrite (get_toolset_version_banner _ _ _ _ _ _ Hrun), Hs. simpl. rewrite Hz.
    split; [done | by eapply int_raises_ValueError].
  - apply get_toolset_version_raises.
  - apply get_toolset_version_returns.
Qed.

Lemma get_toolset_version_failures_witness :
  exists e, VS.get_toolset_version (runner_with_banner "usage: cl [ option... ]")
              (search_finds "unknown version") toolset_of = Raise e /\
            exn_class e = "ValueError".
Proof.
  refine (proj1 (proj2 (get_toolset_version_failures
                          (runner_with_banner "usage: cl [ option... ]")
                          (search_finds "unknown version") toolset_of))
            tt "" "usage: cl [ option... ]" eq_refl _).
  vm_compute. lia.
Defined.

(** ** Compile probes *)

Section Store.
Implicit Types (h : store) (l : loc) (xs ys : list string).

Lemma alloc_fresh h xs : h !! (alloc h xs).1 = None.
Proof. apply not_elem_of_dom, is_fresh. Qed.

Lemma alloc_lookup_new h xs : (alloc h xs).2 !! (alloc h xs).1 = Some xs.
Proof. apply lookup_insert_eq. Qed.

Lemma alloc_lookup_old h xs l ys : h !! l = Some ys -> (alloc h xs).2 !! l = Some ys.
Proof.
  intros Hl. unfold alloc. simpl. rewrite lookup_insert_ne; [done|].
  intros E. pose proof (alloc_fresh h xs) as Hf. unfold alloc in Hf. simpl in Hf.
  rewrite E in Hf. congruence.
Qed.

Lemma ne_str_true (v : pyval) (s : string) : ne_str v s = true <-> v <> PStr s.
Proof.
  destruct v as [|t|items]; simpl; [done| |done].
  destruct (String.eqb_spec t s) as [->|Hne]; simpl; split; try done.
  intros _ [= E]. done.
Qed.

Lemma ne_str_false (v : pyval) (s : string) : ne_str v s = false <-> v = PStr s.
Proof.
  destruct v as [|t|items]; simpl; [done| |done].
  destruct (String.eqb_spec t s) as [->|Hne]; simpl; split; try done.
  intros [= E]. done.
Qed.
End Store.

Section Compile.
Context {Code : Type}.
Implicit Types (h : store) (l : loc) (xs : list string) (code : Code)
  (kwargs : gmap string pyval).

(** [compile] does nothing with the delegated call but make it. *)
Lemma compile_delegates {R : Type}
    (super_compile : store -> Code -> option loc -> gmap string pyval -> R)
    h code extra_args kwargs :
  VS.compile super_compile h code extra_args kwargs
  = (fun '(h', code', extra_args', kwargs') =>
       super_compile h' code' extra_args' kwargs')
    <$> compile_call h code extra_args kwargs.
Proof.
  unfold compile_call, VS.compile.
  destruct (ne_str _ _); [|done].
  destruct extra_args as [l|]; simpl.
  - unfold list_copy. destruct (h !! l) as [xs|]; [|done]. simpl.
    by destruct (list_extend _ _ _).
  - by destruct (list_extend _ _ _).
Qed.

(** Link mode: the call is delegated as it came. *)
Lemma compile_call_link h code extra_args kwargs :
  dict_get_default kwargs "mode" (PStr "compile") = PStr "link" ->
  compile_call h code extra_args kwargs = Some (h, code, extra_args, kwargs).
Proof.
  intros Hm. unfold compile_call, VS.compile.
  apply ne_str_false in Hm. by rewrite Hm.
Qed.

(** Any other mode, with a list: a copy is extended and delegated. *)
Lemma compile_call_copy h code l xs kwargs :
  dict_get_default kwargs "mode" (PStr "compile") <> PStr "link" ->
  h !! l = Some xs ->
  let l' := fresh (dom h) in
  compile_call h code (Some l) kwargs
  = Some (<[l' := xs ++ VS.diag_error_args]> (<[l' := xs]> h), code, Some l', kwargs).
Proof.
  intros Hm Hl l'. unfold compile_call, VS.compile.
  apply ne_str_true in Hm. rewrite Hm. simpl.
  unfold list_copy. rewrite Hl. simpl.
  unfold list_extend. fold l'. rewrite lookup_insert_eq. reflexivity.
Qed.

(** Any other mode, without a list: a new list holds the flags. *)
Lemma compile_call_new h code kwargs :
  dict_get_default kwargs "mode" (PStr "compile") <> PStr "link" ->
  let l' := fresh (dom h) in
  compile_call h code None kwargs
  = Some (<[l' := VS.diag_error_args]> (<[l' := []]> h), code, Some l', kwargs).
Proof.
  intros Hm l'. unfold compile_call, VS.compile.
  apply ne_str_true in Hm. rewrite Hm. simpl.
  unfold list_extend. fold l'. rewrite lookup_insert_eq. reflexivity.
Qed.

(** Objects of the store before the call are the same after it. *)
Lemma fresh_insert_preserves h l' (xs ys zs : list string) l :
  l' = fresh (dom h) -> h !! l = Some xs ->
  <[l' := ys]> (<[l' := zs]> h) !! l = Some xs.
Proof.
  intros -> Hl.
  assert (fresh (dom h) <> l).
  { intros E. pose proof (is_fresh (dom h)) as Hf. rewrite E in Hf.
    apply Hf, elem_of_dom. eauto. }
  by rewrite !lookup_insert_ne.
Qed.
End Compile.

Lemma tokens_cons (v : pyval) (vs : list pyval) :
  tokens (PList (v :: vs)) = tokens v ++ tokens (PList vs).
Proof. reflexivity. Qed.

Lemma tokens_strings (ss : list string) : tokens (PList (PStr <$> ss)) = ss.
Proof.
  induction ss as [|s ss IH]; [done|].
  by rewrite fmap_cons, tokens_cons, IH.
Qed.

Lemma tokens_or_empty (v : pyval) :
  (forall s, v <> PStr s) -> tokens (py_or v (PList [])) = tokens v.
Proof.
  intros Hv. unfold py_or. destruct v as [|s|[|i items]]; simpl; try done.
  by destruct (Hv s).
Qed.

(** C9.  [compile] alters no list object that exists when it is called:
    after it, the caller's list holds the elements it held before, in
    link mode as in any other; when flags are added, they go to a new
    object, which is the one the base class receives. *)
Theorem compile_keeps_caller_list {Code : Type} (h : store) (code : Code)
    (l : loc) (xs : list string) (kwargs : gmap string pyval)
    (Hl : h !! l = Some xs) :
  exists h' extra_args',
    compile_call h code (Some l) kwargs = Some (h', code, extra_args', kwargs) /\
    (forall (R : Type) (super_compile : store -> Code -> option loc -> gmap string pyval -> R),
       VS.compile super_compile h code (Some l) kwargs
       = Some (super_compile h' code extra_args' kwargs)) /\
    h' !! l = Some xs /\
    (forall l0 ys, h !! l0 = Some ys -> h' !! l0 = Some ys) /\
    (dict_get_default kwargs "mode" (PStr "compile") <> PStr "link" ->
       exists l', extra_args' = Some l' /\ l' <> l /\ h !! l' = None /\
                  h' !! l' = Some (xs ++ VS.diag_error_args)).
Proof.
  destruct (ne_str (dict_get_default kwargs "mode" (PStr "compile")) "link") eqn:Hm.
  - apply ne_str_true in Hm.
    pose proof (compile_call_copy h code l xs kwargs Hm Hl) as Hc. simpl in Hc.
    eexists _, _. split; [exact Hc|].
    split; [intros R super; by rewrite compile_delegates, Hc|].
    split; [by apply fresh_insert_preserves|].
    split; [intros l0 ys Hl0; by apply fresh_insert_preserves|].
    intros _. exists (fresh (dom h)).
    assert (Hf : h !! fresh (dom h) = None) by apply not_elem_of_dom, is_fresh.
    repeat split; [congruence | done | apply lookup_insert_eq].
  - apply ne_str_false in Hm.
    exists h, (Some l). split; [by apply compile_call_link|].
    split; [intros R super; by rewrite compile_delegates, compile_call_link|].
    done.
Qed.

Lemma compile_keeps_caller_list_witness :
  ({[1%positive := ["/W3"]]} : store) !! 1%positive = Some ["/W3"] /\
  exists h' extra_args',
    compile_call {[1%positive := ["/W3"]]} "int main(void) { return 0; }"
                 (Some 1%positive) ∅
    = Some (h', "int main(void) { return 0; }", extra_args', ∅) /\
    h' !! 1%positive = Some ["/W3"].
Proof.
  assert (Hl : ({[1%positive := ["/W3"]]} : store) !! 1%positive = Some ["/W3"])
    by reflexivity.
  destruct (compile_keeps_caller_list _ "int main(void) { return 0; }" _ _ ∅ Hl)
    as (h' & extra_args' & Hc & _ & Hx & _).
  split; [exact Hl|]. exists h', extra_args'. by split.
Defined.

(** C2 (as stated, refuted).  In link mode the extra arguments go down
    as the caller gave them, so a promotion flag the caller supplied is
    among the extra arguments passed down. *)
Lemma link_mode_passes_promotion_flag_of_caller :
  exists h' l' passed,
    compile_call ({[1%positive := ["/Qdiag-error:10006"]]} : store)
                 "int main(void) { return 0; }" (Some 1%positive)
                 {["mode" := PStr "link"]}
    = Some (h', "int main(void) { return 0; }", Some l', {["mode" := PStr "link"]}) /\
    h' !! l' = Some passed /\
    ("/Qdiag-error:10006" ∈ passed) /\
    ("/Qdiag-error:10006" ∈ VS.diag_error_args).
Proof.
  eexists _, _, _. split; [by apply compile_call_link|].
  split; [apply lookup_singleton_eq|].
  split; by_evaluation.
Qed.

(** C2 (amended).  In every invocation, with extra arguments or with
    the default [None], [compile] adds the six [/Qdiag-error] flags if
    and only if the mode is not ['link'], a missing mode counting as
    ['compile'].  In a mode other than link a list is passed down that
    holds the caller's elements (none for [None]) followed by the six
    flags, so it contains all six.  In link mode the extra arguments
    are passed down as the caller gave them, the same reference or
    [None], and the store is unchanged: they contain exactly what the
    caller supplied and nothing is added. *)
Theorem compile_extends_unless_link {Code : Type} (h : store) (code : Code)
    (extra_args : option loc) (kwargs : gmap string pyval)
    (Hwf : forall l, extra_args = Some l -> is_Some (h !! l)) :
  let mode := dict_get_default kwargs "mode" (PStr "compile") in
  let caller := extra_args_elements h extra_args in
  (kwargs !! "mode" = None -> mode = PStr "compile" /\ mode <> PStr "link") /\
  length VS.diag_error_args = 6 /\
  exists h' extra_args',
    compile_call h code extra_args kwargs = Some (h', code, extra_args', kwargs) /\
    let passed := extra_args_elements h' extra_args' in
    (passed = caller ++ VS.diag_error_args <-> mode <> PStr "link") /\
    (passed = caller <-> mode = PStr "link") /\
    (mode <> PStr "link" ->
       (exists l', extra_args' = Some l' /\ h' !! l' = Some passed) /\
       forall f, f ∈ VS.diag_error_args -> f ∈ passed) /\
    (mode = PStr "link" ->
       extra_args' = extra_args /\ h' = h /\ forall f, f ∈ passed <-> f ∈ caller).
Proof.
  intros mode caller. split.
  { intros Hnone. unfold mode, dict_get_default. rewrite Hnone. by split. }
  split; [reflexivity|].
  assert (Hne : caller <> caller ++ VS.diag_error_args).
  { intros E. apply (f_equal length) in E. rewrite length_app in E. simpl in E. lia. }
  destruct (ne_str mode "link") eqn:Hm.
  - apply ne_str_true in Hm.
    assert (Hcall : exists h' l',
              compile_call h code extra_args kwargs = Some (h', code, Some l', kwargs) /\
              h' !! l' = Some (caller ++ VS.diag_error_args)).
    { destruct extra_args as [l|].
      - destruct (Hwf l eq_refl) as [xs Hl].
        pose proof (compile_call_copy h code l xs kwargs Hm Hl) as Hc. simpl in Hc.
        eexists _, _. split; [exact Hc|].
        unfold caller. simpl. rewrite Hl. apply lookup_insert_eq.
      - pose proof (compile_call_new h code kwargs Hm) as Hc. simpl in Hc.
        eexists _, _. split; [exact Hc | apply lookup_insert_eq]. }
    destruct Hcall as (h' & l' & Hc & Hp).
    exists h', (Some l'). split; [exact Hc|].
    simpl. rewrite Hp. simpl.
    split; [done|].
    split; [split; [intros E; by destruct Hne | intros E; by destruct Hm]|].
    split; [|intros E; by destruct Hm].
    intros _. split; [by exists l'|].
    intros f Hf. apply elem_of_app. by right.
  - apply ne_str_false in Hm.
    exists h, extra_args. split; [by apply compile_call_link|].
    simpl. fold caller.
    split; [split; [intros E; by destruct Hne | by intros []]|].
    split; [done|]. split; [by intros []|done].
Qed.

Lemma compile_extends_unless_link_witness :
  (forall l, Some 1%positive = Some l ->
             is_Some (({[1%positive := ["/W3"]]} : store) !! l)) /\
  (exists h' extra_args',
     compile_call {[1%positive := ["/W3"]]} "int main(void) { return 0; }"
                  (Some 1%positive) {["mode" := PStr "link"]}
     = Some (h', "int main(void) { return 0; }", extra_args', {["mode" := PStr "link"]}) /\
     extra_args_elements h' extra_args' = ["/W3"]) /\
  (exists h' extra_args',
     compile_call (∅ : store) "int main(void) { return 0; }" None ∅
     = Some (h', "int main(void) { return 0; }", extra_args', ∅) /\
     extra_args_elements h' extra_args' = VS.diag_error_args).
Proof.
  assert (Hwf : forall l, Some 1%positive = Some l ->
                          is_Some (({[1%positive := ["/W3"]]} : store) !! l)).
  { intros l [= <-]. exists ["/W3"]. reflexivity. }
  assert (Hwf0 : forall l, @None loc = Some l -> is_Some ((∅ : store) !! l))
    by discriminate.
  split; [exact Hwf|]. split.
  - destruct (compile_extends_unless_link _ "int main(void) { return 0; }" _
                {["mode" := PStr "link"]} Hwf)
      as (_ & _ & h' & extra_args' & Hc & _ & Hlink & _).
    exists h', extra_args'. split; [exact Hc|]. apply Hlink. reflexivity.
  - destruct (compile_extends_unless_link ∅ "int main(void) { return 0; }" None ∅ Hwf0)
      as (_ & _ & h' & extra_args' & Hc & Happ & _).
    exists h', extra_args'. split; [exact Hc|]. apply Happ. discriminate.
Defined.

(** C1 (as stated, refuted).  [compiles] of the POSIX-like adapter does
    not splice the caller's tokens into the list it passes down: for
    the caller's [['-Wall']] the base class receives a list whose first
    element is the list [['-Wall']] itself, which is not the caller's
    token followed by the flags. *)
Lemma compiles_nests_caller_list :
  compiles_extra_args [] {["extra_args" := PList [PStr "-Wall"]]}
  = Some (PList (PList [PStr "-Wall"] :: (PStr <$> Gnu.diag_error_args))) /\
  compiles_extra_args [] {["extra_args" := PList [PStr "-Wall"]]}
  <> Some (PList (PStr "-Wall" :: (PStr <$> Gnu.diag_error_args))).
Proof.
  assert (E : compiles_extra_args [] {["extra_args" := PList [PStr "-Wall"]]}
              = Some (PList (PList [PStr "-Wall"] :: (PStr <$> Gnu.diag_error_args)))).
  { unfold compiles_extra_args, Gnu.compiles. rewrite lookup_insert_eq.
    unfold dict_get. by rewrite lookup_singleton_eq. }
  split; [exact E|]. rewrite E. discriminate.
Qed.

(** C1 (amended).  No caller token is dropped or reordered, and the
    flags come after them.  The Windows-like adapter passes down a flat
    list: the caller's elements in their order, followed by the six
    flags unless the mode is link.  The POSIX-like adapter passes down a
    new list whose first element is the caller's extra-arguments list
    as a whole (an empty list when the caller gave none), followed by
    the fourteen [-diag-error] tokens; read from left to right, the
    tokens of that nested list are the caller's tokens in their order
    followed by the fourteen tokens. *)
Theorem compile_probes_keep_caller_tokens {Code : Type}
    (args : list pyval) (kwargs : gmap string pyval)
    (h : store) (code : Code) (l : loc) (xs : list string)
    (vs_kwargs : gmap string pyval)
    (Hextra : dict_get kwargs "extra_args" = PNone \/
              exists items, dict_get kwargs "extra_args" = PList items)
    (Hl : h !! l = Some xs) :
  let caller := dict_get kwargs "extra_args" in
  let passed := PList (py_or caller (PList []) :: (PStr <$> Gnu.diag_error_args)) in
  (forall (R : Type) (super_compiles : list pyval -> gmap string pyval -> R),
     Gnu.compiles super_compiles args kwargs
     = super_compiles args (<["extra_args" := passed]> kwargs)) /\
  compiles_extra_args args kwargs = Some passed /\
  (truthy caller = true -> py_or caller (PList []) = caller) /\
  (truthy caller = false -> py_or caller (PList []) = PList []) /\
  tokens passed = tokens caller ++ Gnu.diag_error_args /\
  exists h' l',
    compile_call h code (Some l) vs_kwargs = Some (h', code, Some l', vs_kwargs) /\
    h' !! l' = Some (xs ++ (if ne_str (dict_get_default vs_kwargs "mode" (PStr "compile")) "link"
                            then VS.diag_error_args else [])).
Proof.
  intros caller passed.
  split; [reflexivity|].
  split; [unfold compiles_extra_args, Gnu.compiles; apply lookup_insert_eq|].
  split; [unfold py_or; by intros ->|].
  split; [unfold py_or; by intros ->|].
  split.
  - unfold passed. rewrite tokens_cons, tokens_strings, tokens_or_empty; [done|].
    intros s Hs. fold caller in Hextra. destruct Hextra as [E|[items E]]; congruence.
  - destruct (ne_str (dict_get_default vs_kwargs "mode" (PStr "compile")) "link") eqn:Hm.
    + apply ne_str_true in Hm.
      pose proof (compile_call_copy h code l xs vs_kwargs Hm Hl) as Hc. simpl in Hc.
      eexists _, _. split; [exact Hc | apply lookup_insert_eq].
    + apply ne_str_false in Hm. exists h, l.
      split; [by apply compile_call_link | by rewrite app_nil_r].
Qed.

Lemma compile_probes_keep_caller_tokens_witness :
  (exists items,
     dict_get {["extra_args" := PList [PStr "-Wall"; PStr "-O2"]]} "extra_args"
     = PList items) /\
  ({[1%positive := ["/W3"]]} : store) !! 1%positive = Some ["/W3"] /\
  tokens (PList (PList [PStr "-Wall"; PStr "-O2"] :: (PStr <$> Gnu.diag_error_args)))
  = ["-Wall"; "-O2"] ++ Gnu.diag_error_args /\
  exists h' l',
    compile_call {[1%positive := ["/W3"]]} "int main(void) { return 0; }"
                 (Some 1%positive) ∅
    = Some (h', "int main(void) { return 0; }", Some l', ∅) /\
    h' !! l' = Some (["/W3"] ++ VS.diag_error_args).
Proof.
  assert (Hextra : exists items,
     dict_get {["extra_args" := PList [PStr "-Wall"; PStr "-O2"]]} "extra_args"
     = PList items) by (eexists; reflexivity).
  assert (Hl : ({[1%positive := ["/W3"]]} : store) !! 1%positive = Some ["/W3"])
    by reflexivity.
  destruct (compile_probes_keep_caller_tokens [] _ _ "int main(void) { return 0; }" _ _ ∅
              (or_intror Hextra) Hl)
    as (_ & _ & _ & _ & Ht & Hvs).
  split; [exact Hextra|]. split; [exact Hl|]. split; [exact Ht | exact Hvs].
Defined.

(** * Further properties of the code *)

(** ** Flag tables, both families side by side *)

Lemma getitem_list_to_map_elem {V : Type} (kvs : list (string * V)) k v :
  getitem (list_to_map kvs : gmap string V) k = Return v -> (k, v) ∈ kvs.
Proof.
  unfold getitem. destruct (list_to_map kvs !! k) as [v'|] eqn:E; [|done].
  intros [= <-]. by apply elem_of_list_to_map_2.
Qed.

Lemma getitem_list_to_map_Forall {V : Type} (P : string -> V -> Prop)
    (kvs : list (string * V)) k v :
  Forall (fun kv => P kv.1 kv.2) kvs ->
  getitem (list_to_map kvs : gmap string V) k = Return v -> P k v.
Proof.
  intros HP Hk. apply getitem_list_to_map_elem in Hk.
  by apply (proj1 (Forall_forall _ _) HP (k, v)).
Qed.

Ltac table_entries := repeat (apply Forall_cons; split; [simpl|]); try apply Forall_nil.

(** X1.  Every flag the POSIX-like adapter gives for a build type, an
    optimization level, OpenMP or profiling starts with a dash, and
    every flag the Windows-like adapter gives for a build type, an
    optimization level or OpenMP starts with a slash. *)
Theorem flags_follow_family_syntax (self : compiler) (key flag : string)
    (flags : list string) (Hflag : flag ∈ flags) :
  (Gnu.get_buildtype_args key = Return flags -> starts_with "-" flag = true) /\
  (Gnu.get_optimization_args key = Return flags -> starts_with "-" flag = true) /\
  (flags = Gnu.openmp_flags self -> starts_with "-" flag = true) /\
  (flags = Gnu.get_profile_generate_args ++ Gnu.get_profile_use_args ->
     starts_with "-" flag = true) /\
  (VS.get_buildtype_args key = Return flags -> starts_with "/" flag = true) /\
  (VS.get_optimization_args key = Return flags -> starts_with "/" flag = true) /\
  (flags = VS.openmp_flags -> starts_with "/" flag = true).
Proof.
  assert (Hall : forall c (fl : list string),
            Forall (fun f => starts_with c f = true) fl ->
            flags = fl -> starts_with c flag = true).
  { intros c fl HF ->. by apply (proj1 (Forall_forall _ _) HF). }
  assert (Htab : forall c (kvs : list (string * list string)),
            Forall (fun kv => Forall (fun f => starts_with c f = true) kv.2) kvs ->
            getitem (list_to_map kvs : gmap string (list string)) key = Return flags ->
            starts_with c flag = true).
  { intros c kvs HF Hk.
    apply (getitem_list_to_map_Forall
             (fun _ fl => Forall (fun f => starts_with c f = true) fl) _ _ _ HF) in Hk.
    by apply (proj1 (Forall_forall _ _) Hk). }
  repeat apply conj.
  - apply Htab. table_entries; table_entries; reflexivity.
  - apply Htab. table_entries; table_entries; reflexivity.
  - unfold Gnu.openmp_flags.
    destruct (Mesonlib.version_compare _ _); apply Hall; table_entries; reflexivity.
  - apply Hall. table_entries; reflexivity.
  - apply Htab. table_entries; table_entries; reflexivity.
  - apply Htab. table_entries; table_entries; reflexivity.
  - apply Hall. table_entries; reflexivity.
Qed.

Lemma flags_follow_family_syntax_witness :
  ("/traceback" ∈ ["/Zi"; "/traceback"]) /\
  VS.get_buildtype_args "debug" = Return ["/Zi"; "/traceback"] /\
  starts_with "/" "/traceback" = true.
Proof.
  assert (Hin : "/traceback" ∈ ["/Zi"; "/traceback"]) by by_evaluation.
  assert (Hk : VS.get_buildtype_args "debug" = Return ["/Zi"; "/traceback"])
    by (vm_compute; reflexivity).
  pose proof (flags_follow_family_syntax (Compiler "19.0" [] "" "") "debug" _ _ Hin)
    as (_ & _ & _ & _ & H & _).
  exact (conj Hin (conj Hk (H Hk))).
Defined.

(** X2.  The two adapters accept the same keys: on any key, the lookups
    of both either fail with the same [KeyError] or return flag lists
    of the same length; and the Windows-like optimization flags are the
    POSIX-like ones with the dash respelled as a slash. *)
Theorem adapters_agree_on_keys (key : string) :
  match Gnu.get_buildtype_args key, VS.get_buildtype_args key with
  | Return posix, Return windows => length posix = length windows
  | Raise e, Raise e' => e = KeyError key /\ e' = KeyError key
  | _, _ => False
  end /\
  VS.get_optimization_args key
  = match Gnu.get_optimization_args key with
    | Return flags => Return (to_slash <$> flags)
    | Raise e => Raise e
    end.
Proof.
  split.
  - destruct (decide (key ∈ BuildTypeKeys)) as [Hin|Hout].
    + unfold BuildTypeKeys in Hin.
      repeat (apply elem_of_cons in Hin as [-> | Hin]);
        [ | | | | | | by apply elem_of_nil in Hin ]; vm_compute; reflexivity.
    + unfold Gnu.get_buildtype_args, VS.get_buildtype_args,
        Gnu.BUILD_ARGS, VS.BUILD_ARGS.
      by rewrite !getitem_list_to_map_absent.
  - destruct (decide (key ∈ OptimizationLevelKeys)) as [Hin|Hout].
    + unfold OptimizationLevelKeys in Hin.
      repeat (apply elem_of_cons in Hin as [-> | Hin]);
        [ | | | | | | by apply elem_of_nil in Hin ]; vm_compute; reflexivity.
    + unfold Gnu.get_optimization_args, VS.get_optimization_args,
        Gnu.OPTIM_ARGS, VS.OPTIM_ARGS.
      by rewrite !getitem_list_to_map_absent.
Qed.

(** X3.  Whenever a lookup returns: an optimization level gives exactly
    one flag, and a build type gives flags only for ['debug'] and
    ['debugoptimized'], where the flags are a debug-information flag
    followed by the traceback flag. *)
Theorem returned_flags_shape (key : string) (flags : list string) :
  (Gnu.get_optimization_args key = Return flags -> length flags = 1) /\
  (VS.get_optimization_args key = Return flags -> length flags = 1) /\
  (Gnu.get_buildtype_args key = Return flags ->
     if bool_decide (key ∈ ["debug"; "debugoptimized"])
     then flags = ["-g"; "-traceback"] else flags = []) /\
  (VS.get_buildtype_args key = Return flags ->
     if bool_decide (key ∈ ["debug"; "debugoptimized"])
     then flags = ["/Zi"; "/traceback"] else flags = []).
Proof.
  repeat apply conj.
  - apply (getitem_list_to_map_Forall (fun _ fl => length fl = 1)).
    table_entries; reflexivity.
  - apply (getitem_list_to_map_Forall (fun _ fl => length fl = 1)).
    table_entries; reflexivity.
  - refine (getitem_list_to_map_Forall
             (fun k fl => if bool_decide (k ∈ ["debug"; "debugoptimized"])
                          then fl = ["-g"; "-traceback"] else fl = []) _ key flags _).
    table_entries; vm_compute; reflexivity.
  - refine (getitem_list_to_map_Forall
             (fun k fl => if bool_decide (k ∈ ["debug"; "debugoptimized"])
                          then fl = ["/Zi"; "/traceback"] else fl = []) _ key flags _).
    table_entries; vm_compute; reflexivity.
Qed.

Lemma returned_flags_shape_witness :
  Gnu.get_buildtype_args "debugoptimized" = Return ["-g"; "-traceback"] /\
  VS.get_optimization_args "s" = Return ["/Os"] /\
  length ["/Os"] = 1.
Proof.
  assert (Hb : Gnu.get_buildtype_args "debugoptimized" = Return ["-g"; "-traceback"])
    by (vm_compute; reflexivity).
  assert (Ho : VS.get_optimization_args "s" = Return ["/Os"])
    by (vm_compute; reflexivity).
  exact (conj Hb (conj Ho
           (proj1 (proj2 (returned_flags_shape "s" ["/Os"])) Ho))).
Defined.

(** ** Precompiled headers, further *)

Section Slashes.
Implicit Types (p d n : string) (c sep : ascii).

Lemma rfind_cons_none sep c p :
  rfind sep (String c p) = (-1)%Z <-> c <> sep /\ rfind sep p = (-1)%Z.
Proof.
  simpl. pose proof (rfind_lower sep p) as Hl.
  destruct (0 <=? rfind sep p)%Z eqn:E.
  - apply Z.leb_le in E. split; [lia | intros [_ ?]; lia].
  - apply Z.leb_gt in E. destruct (Ascii.eqb_spec c sep) as [->|Hne].
    + split; [lia | by intros [? _]].
    + split; [intros _; split; [done | lia] | done].
Qed.

Lemma rfind_none_get sep p :
  rfind sep p = (-1)%Z -> forall i, String.get i p <> Some sep.
Proof.
  induction p as [|c p IH]; intros H i; [by destruct i|].
  apply rfind_cons_none in H as [Hc Hp].
  destruct i as [|i]; simpl; [congruence | by apply IH].
Qed.

Lemma rfind_app_none sep p n :
  rfind sep p = (-1)%Z -> rfind sep n = (-1)%Z -> rfind sep (p +:+ n) = (-1)%Z.
Proof.
  induction p as [|c p IH]; intros Hp Hn; [done|].
  apply rfind_cons_none in Hp as [Hc Hp].
  change (String c p +:+ n) with (String c (p +:+ n)).
  apply rfind_cons_none. split; [done | by apply IH].
Qed.

Lemma basename_no_slash p : rfind "/" p = (-1)%Z -> basename p = p.
Proof. intros H. unfold basename. by rewrite H. Qed.

Lemma rfind_basename p : rfind "/" (basename p) = (-1)%Z.
Proof.
  induction p as [|c p IH]; [done|].
  destruct (Z.le_gt_cases 0 (rfind "/" p)) as [H|H].
  - by rewrite basename_cons.
  - pose proof (rfind_lower "/" p) as Hl.
    assert (E : rfind "/" p = (-1)%Z) by lia.
    destruct (Ascii.eqb_spec c "/") as [->|Hne].
    + by rewrite basename_slash, basename_no_slash.
    + rewrite basename_no_slash; by apply rfind_cons_none.
Qed.
End Slashes.

(** X4.  The name [get_pch_name] gives is a plain file name: whatever
    the header path, no character of the result is a slash. *)
Theorem get_pch_name_has_no_slash (header_name : string) (i : nat) :
  rfind "/" (Gnu.get_pch_name header_name) = (-1)%Z /\
  String.get i (Gnu.get_pch_name header_name) <> Some "/"%char.
Proof.
  assert (H : rfind "/" (Gnu.get_pch_name header_name) = (-1)%Z).
  { unfold Gnu.get_pch_name. apply rfind_app_none; [apply rfind_basename | done]. }
  split; [exact H | by apply rfind_none_get].
Qed.

(** X5.  For a header name without a slash, [get_pch_name] appends
    ['.pchi'] to the name itself, also when the header is given under a
    directory; and applying it to its own result appends the suffix
    once more. *)
Theorem get_pch_name_of_plain_header (dir header_name : string)
    (Hplain : rfind "/" header_name = (-1)%Z) :
  Gnu.get_pch_name header_name = header_name +:+ ".pchi" /\
  Gnu.get_pch_name (dir +:+ "/" +:+ header_name) = header_name +:+ ".pchi" /\
  Gnu.get_pch_name (Gnu.get_pch_name (dir +:+ "/" +:+ header_name))
  = (header_name +:+ ".pchi") +:+ ".pchi".
Proof.
  assert (H1 : Gnu.get_pch_name header_name = header_name +:+ ".pchi").
  { unfold Gnu.get_pch_name. by rewrite basename_no_slash. }
  assert (H2 : Gnu.get_pch_name (dir +:+ "/" +:+ header_name) = header_name +:+ ".pchi").
  { unfold Gnu.get_pch_name.
    change ("/" +:+ header_name) with (String "/" header_name).
    by rewrite basename_join, basename_no_slash. }
  split; [exact H1|]. split; [exact H2|].
  rewrite H2. unfold Gnu.get_pch_name at 1.
  rewrite basename_no_slash; [done|].
  by apply rfind_app_none.
Qed.

Lemma get_pch_name_of_plain_header_witness :
  rfind "/" "pch/../util.hpp" <> (-1)%Z /\
  rfind "/" "util.hpp" = (-1)%Z /\
  Gnu.get_pch_name ("/usr/include" +:+ "/" +:+ "util.hpp") = "util.hpp.pchi".
Proof.
  split; [by vm_compute|].
  exact (conj eq_refl
           (proj1 (proj2 (get_pch_name_of_plain_header "/usr/include" "util.hpp" eq_refl)))).
Defined.

(** X6.  A header path that ends in a slash, like the empty path, has
    an empty base name: [get_pch_name] gives the bare ['.pchi'] for all
    of them. *)
Theorem get_pch_name_of_directory (dir : string) :
  Gnu.get_pch_name (dir +:+ "/") = ".pchi" /\ Gnu.get_pch_name "" = ".pchi".
Proof.
  split; [|reflexivity].
  unfold Gnu.get_pch_name. by rewrite basename_join.
Qed.

(** ** Toolset version, further *)

Section Decimal.
Implicit Types (s a b : string) (c : ascii) (acc : Z).

Lemma all_digits_cons c s :
  all_digits (String c s) = true <-> is_Some (digit_value c) /\ all_digits s = true.
Proof.
  simpl. rewrite andb_true_iff, bool_decide_eq_true. reflexivity.
Qed.

Lemma all_digits_app a b :
  all_digits a = true -> all_digits b = true -> all_digits (a +:+ b) = true.
Proof.
  induction a as [|c a IH]; intros Ha Hb; [done|].
  apply all_digits_cons in Ha as [Hc Ha].
  change (String c a +:+ b) with (String c (a +:+ b)).
  apply all_digits_cons. split; [done | by apply IH].
Qed.

Lemma digit_not_space c : is_Some (digit_value c) -> is_space c = false.
Proof.
  intros [d Hd]. unfold digit_value in Hd. unfold is_space.
  destruct (Nat.leb_spec 48 (nat_of_ascii c)), (Nat.leb_spec (nat_of_ascii c) 57);
    simpl in Hd; try discriminate.
  destruct (Nat.eqb_spec (nat_of_ascii c) 32), (Nat.leb_spec 9 (nat_of_ascii c)),
    (Nat.leb_spec (nat_of_ascii c) 13); simpl; try reflexivity; lia.
Qed.

Lemma strip_digits s : all_digits s = true -> strip s = s.
Proof.
  intros H. unfold strip.
  assert (Hl : lstrip s = s).
  { destruct s as [|c s]; [done|]. apply all_digits_cons in H as [Hc _].
    simpl. by rewrite (digit_not_space c Hc). }
  rewrite Hl. clear Hl.
  induction s as [|c s IH]; [done|].
  apply all_digits_cons in H as [Hc Hs]. simpl. rewrite (IH Hs).
  destruct s; [by rewrite (digit_not_space c Hc) | done].
Qed.

Lemma digits_all s acc :
  all_digits s = true -> digits s acc true = Some (decimal s acc).
Proof.
  revert acc. induction s as [|c s IH]; intros acc H; [done|].
  apply all_digits_cons in H as [[d Hd] Hs]. simpl. rewrite Hd. simpl. by apply IH.
Qed.

Lemma digits_all_nonempty s acc :
  all_digits s = true -> s <> "" -> digits s acc false = Some (decimal s acc).
Proof.
  intros H Hne. destruct s as [|c s]; [done|].
  apply all_digits_cons in H as [[d Hd] Hs]. simpl. rewrite Hd. simpl.
  by apply digits_all.
Qed.

(** On digits, [int] is the decimal reading. *)
Lemma int_digits s : all_digits s = true -> s <> "" -> int s = Return (decimal s 0).
Proof.
  intros H Hne. unfold int. rewrite (strip_digits s H).
  pose proof (digits_all_nonempty s 0 H Hne) as Hd.
  destruct s as [|c s]; [done|].
  apply all_digits_cons in H as [[d Hc] _].
  assert (Hsign : digit_value "+" = None /\ digit_value "-" = None) by done.
  destruct (Ascii.eqb_spec c "+") as [->|Hp]; [destruct Hsign; congruence|].
  destruct (Ascii.eqb_spec c "-") as [->|Hm]; [destruct Hsign; congruence|].
  assert (E : match String c s with
              | String "+" r => digits r 0%Z false
              | String "-" r => Z.opp <$> digits r 0%Z false
              | _ => digits (String c s) 0%Z false
              end = digits (String c s) 0%Z false).
  { clear -Hp Hm.
    destruct c as [[] [] [] [] [] [] [] []]; try reflexivity; by destruct Hp || by destruct Hm. }
  rewrite E, Hd. reflexivity.
Qed.

Lemma decimal_app a b acc : decimal (a +:+ b) acc = decimal b (decimal a acc).
Proof.
  revert acc. induction a as [|c a IH]; intros acc; [done|].
  change (String c a +:+ b) with (String c (a +:+ b)). simpl. apply IH.
Qed.

Lemma decimal_shift s acc :
  decimal s acc = (acc * 10 ^ Z.of_nat (String.length s) + decimal s 0)%Z.
Proof.
  revert acc. induction s as [|c s IH]; intros acc; [simpl; lia|].
  simpl decimal. rewrite (IH (10 * acc + _)%Z), (IH (10 * 0 + _)%Z).
  simpl String.length. rewrite Nat2Z.inj_succ, Z.pow_succ_r by lia. ring.
Qed.
End Decimal.

(** X8.  [get_toolset_version] looks at nothing but the first two
    dot-separated components of the version found in the error text:
    the process, its output and the further components do not matter.
    When those two components concatenate to an integer literal, the
    result is the toolset calculation of that integer, whatever it is
    (also [None]). *)
Theorem get_toolset_version_reads_two_components {Popen Popen' : Type}
    (Popen_safe : list string -> result (Popen * string * string))
    (Popen_safe' : list string -> result (Popen' * string * string))
    (search_version search_version' : string -> string)
    (_calculate_toolset_version : Z -> option string)
    (p : Popen) (p' : Popen') (out err out' err' v1 v2 : string)
    (rest rest' : list string)
    (Hrun : Popen_safe ["cl.exe"] = Return (p, out, err))
    (Hrun' : Popen_safe' ["cl.exe"] = Return (p', out', err'))
    (Hsplit : split "." (search_version err) = v1 :: v2 :: rest)
    (Hsplit' : split "." (search_version' err') = v1 :: v2 :: rest') :
  VS.get_toolset_version Popen_safe search_version _calculate_toolset_version
  = VS.get_toolset_version Popen_safe' search_version' _calculate_toolset_version /\
  (forall z, int (v1 +:+ v2) = Return z ->
     VS.get_toolset_version Popen_safe search_version _calculate_toolset_version
     = Return (_calculate_toolset_version z)).
Proof.
  rewrite (get_toolset_version_banner _ _ _ _ _ _ Hrun),
    (get_toolset_version_banner _ _ _ _ _ _ Hrun'), Hsplit, Hsplit'.
  split; [reflexivity|]. intros z Hz. simpl. by rewrite Hz.
Qed.

Lemma get_toolset_version_reads_two_components_witness :
  VS.get_toolset_version (runner_with_banner "Version 19.16.27034 for x64")
    (search_finds "19.16.27034") toolset_of
  = VS.get_toolset_version (runner_with_banner "Version 19.16 for x86")
      (search_finds "19.16") toolset_of.
Proof.
  exact (proj1 (get_toolset_version_reads_two_components
                  (runner_with_banner "Version 19.16.27034 for x64")
                  (runner_with_banner "Version 19.16 for x86")
                  (search_finds "19.16.27034") (search_finds "19.16") toolset_of
                  tt tt "" "Version 19.16.27034 for x64" "" "Version 19.16 for x86"
                  "19" "16" ["27034"] [] eq_refl eq_refl eq_refl eq_refl)).
Defined.

(** X9.  When the first two components are runs of digits, the integer
    given to the toolset calculation is the first component shifted by
    as many decimal places as the second one has digits, plus the second
    component: the components are concatenated as text, not combined as
    major times a fixed power of ten. *)
Theorem get_toolset_version_concatenates {Popen : Type}
    (Popen_safe : list string -> result (Popen * string * string))
    (search_version : string -> string)
    (_calculate_toolset_version : Z -> option string)
    (p : Popen) (out err v1 v2 : string) (rest : list string)
    (Hrun : Popen_safe ["cl.exe"] = Return (p, out, err))
    (Hsplit : split "." (search_version err) = v1 :: v2 :: rest)
    (Hv1 : all_digits v1 = true) (Hv2 : all_digits v2 = true)
    (Hne : v1 <> "") :
  VS.get_toolset_version Popen_safe search_version _calculate_toolset_version
  = Return (_calculate_toolset_version
              (decimal v1 0 * 10 ^ Z.of_nat (String.length v2) + decimal v2 0)%Z).
Proof.
  rewrite (get_toolset_version_banner _ _ _ _ _ _ Hrun), Hsplit. simpl.
  rewrite int_digits; [| by apply all_digits_app | by destruct v1].
  simpl. by rewrite decimal_app, decimal_shift.
Qed.

Lemma get_toolset_version_concatenates_witness :
  VS.get_toolset_version (runner_with_banner "Version 19.1.0 for x64")
    (search_finds "19.1.0") toolset_of
  = Return (toolset_of 191%Z).
Proof.
  exact (get_toolset_version_concatenates
           (runner_with_banner "Version 19.1.0 for x64") (search_finds "19.1.0")
           toolset_of tt "" "Version 19.1.0 for x64" "19" "1" ["0"]
           eq_refl eq_refl eq_refl eq_refl ltac:(discriminate)).
Defined.

(** ** Compile probes, further *)

(** X10.  [compiles] of the POSIX-like adapter touches no argument but
    [extra_args]: the positional arguments and every other keyword
    argument reach the base class as the caller gave them, and
    [extra_args] is always present in the delegated call, as a list of
    fifteen elements. *)
Theorem compiles_keeps_other_arguments (args : list pyval)
    (kwargs : gmap string pyval) (k : string) (Hk : k <> "extra_args") :
  (compiles_call args kwargs).1 = args /\
  (compiles_call args kwargs).2 !! k = kwargs !! k /\
  dom (compiles_call args kwargs).2 = {["extra_args"]} ∪ dom kwargs /\
  exists items, (compiles_call args kwargs).2 !! "extra_args" = Some (PList items) /\
                length items = 15 /\ truthy (PList items) = true.
Proof.
  unfold compiles_call, Gnu.compiles. simpl.
  split; [reflexivity|].
  split; [by rewrite lookup_insert_ne|].
  split; [by rewrite dom_insert_L|].
  eexists. split; [apply lookup_insert_eq|]. by split.
Qed.

Lemma compiles_keeps_other_arguments_witness :
  "mode" <> "extra_args" /\
  (compiles_call [PStr "int x;"] {["mode" := PStr "link"]}).2 !! "mode"
  = Some (PStr "link").
Proof.
  assert (Hk : "mode" <> "extra_args") by discriminate.
  pose proof (compiles_keeps_other_arguments [PStr "int x;"]
                {["mode" := PStr "link"]} "mode" Hk) as (_ & H & _).
  split; [exact Hk|]. rewrite H. apply lookup_singleton_eq.
Defined.

(** X11.  For [compiles], an [extra_args] that is missing, [None], the
    empty list or the empty string is all the same: the base class is
    called with identical arguments in the four cases. *)
Theorem compiles_treats_falsy_extra_args_alike {R : Type}
    (super_compiles : list pyval -> gmap string pyval -> R)
    (args : list pyval) (kwargs : gmap string pyval) (v : pyval) :
  let absent := Gnu.compiles super_compiles args (delete "extra_args" kwargs) in
  Gnu.compiles super_compiles args (<["extra_args" := PNone]> kwargs) = absent /\
  Gnu.compiles super_compiles args (<["extra_args" := PList []]> kwargs) = absent /\
  Gnu.compiles super_compiles args (<["extra_args" := PStr ""]> kwargs) = absent /\
  (truthy v = false ->
   Gnu.compiles super_compiles args (<["extra_args" := v]> kwargs) = absent).
Proof.
  assert (H : forall w, truthy w = false ->
            Gnu.compiles super_compiles args (<["extra_args" := w]> kwargs)
            = Gnu.compiles super_compiles args (delete "extra_args" kwargs)).
  { intros w Hw. unfold Gnu.compiles, dict_get, py_or.
    rewrite lookup_insert_eq, lookup_delete_eq. simpl. rewrite Hw.
    by rewrite insert_insert_eq, insert_delete_eq. }
  intros absent. repeat apply conj; by apply H.
Qed.

Lemma compiles_treats_falsy_extra_args_alike_witness :
  truthy (PStr "") = false /\
  compiles_call [] (<["extra_args" := PStr ""]> {["mode" := PStr "link"]})
  = compiles_call [] (delete "extra_args" {["mode" := PStr "link"]}).
Proof.
  split; [reflexivity|].
  exact (proj2 (proj2 (proj2
           (compiles_treats_falsy_extra_args_alike
              (fun args' kwargs' => (args', kwargs')) []
              {["mode" := PStr "link"]} (PStr "")))) eq_refl).
Defined.

(** X12.  [compiles] is not idempotent: wrapped around itself it nests
    the caller's arguments two levels deep, and the fourteen tokens
    come twice after the caller's tokens. *)
Theorem compiles_twice_repeats_flags {R : Type}
    (super_compiles : list pyval -> gmap string pyval -> R)
    (args : list pyval) (kwargs : gmap string pyval) :
  let first := py_or (dict_get kwargs "extra_args") (PList []) in
  let once := PList (first :: (PStr <$> Gnu.diag_error_args)) in
  let twice := PList (once :: (PStr <$> Gnu.diag_error_args)) in
  Gnu.compiles super_compiles args kwargs
  = super_compiles args (<["extra_args" := once]> kwargs) /\
  Gnu.compiles (Gnu.compiles super_compiles) args kwargs
  = super_compiles args (<["extra_args" := twice]> kwargs) /\
  tokens twice = tokens first ++ Gnu.diag_error_args ++ Gnu.diag_error_args /\
  tokens twice <> tokens once.
Proof.
  intros first once twice.
  assert (Ht : tokens twice = tokens once ++ Gnu.diag_error_args).
  { unfold twice. by rewrite tokens_cons, tokens_strings. }
  assert (Ho : tokens once = tokens first ++ Gnu.diag_error_args).
  { unfold once. by rewrite tokens_cons, tokens_strings. }
  split; [reflexivity|]. split.
  { unfold Gnu.compiles at 1 2. unfold dict_get at 1. rewrite lookup_insert_eq.
    simpl. by rewrite insert_insert_eq. }
  split; [by rewrite Ht, Ho, <- app_assoc|].
  rewrite Ht. intros E. apply (f_equal length) in E.
  rewrite length_app in E. simpl in E. lia.
Qed.

(** X13.  [compile] of the Windows-like adapter without extra
    arguments: in link mode [None] is passed on and the store is left
    as it is; in any other mode a new list object holding exactly the
    six flags is passed, and no existing object changes. *)
Theorem compile_without_extra_args {Code : Type} (h : store) (code : Code)
    (kwargs : gmap string pyval) :
  exists h' extra_args',
    compile_call h code None kwargs = Some (h', code, extra_args', kwargs) /\
    (forall l0 ys, h !! l0 = Some ys -> h' !! l0 = Some ys) /\
    if ne_str (dict_get_default kwargs "mode" (PStr "compile")) "link"
    then exists l', extra_args' = Some l' /\ h !! l' = None /\
                    h' !! l' = Some VS.diag_error_args /\
                    dom h' = {[l']} ∪ dom h
    else extra_args' = None /\ h' = h.
Proof.
  destruct (ne_str (dict_get_default kwargs "mode" (PStr "compile")) "link") eqn:Hm.
  - apply ne_str_true in Hm.
    pose proof (compile_call_new h code kwargs Hm) as Hc. simpl in Hc.
    eexists _, _. split; [exact Hc|].
    assert (Hf : h !! fresh (dom h) = None) by apply not_elem_of_dom, is_fresh.
    split.
    { intros l0 ys Hl0. rewrite !lookup_insert_ne; [done | congruence | congruence]. }
    exists (fresh (dom h)). split; [done|]. split; [done|].
    split; [apply lookup_insert_eq|].
    by rewrite insert_insert_eq, dom_insert_L.
  - apply ne_str_false in Hm. exists h, None.
    split; [by apply compile_call_link|]. by split.
Qed.

(** X14.  [compile] allocates at most one list object and removes
    none: in link mode the store and the reference go down as they
    came; in any other mode the store gains exactly one object, which
    was not there before and is the one passed down. *)
Theorem compile_allocates_one_list {Code : Type} (h : store) (code : Code)
    (l : loc) (xs : list string) (kwargs : gmap string pyval)
    (Hl : h !! l = Some xs) :
  exists h' extra_args',
    compile_call h code (Some l) kwargs = Some (h', code, extra_args', kwargs) /\
    (dom h ⊆ dom h') /\
    if ne_str (dict_get_default kwargs "mode" (PStr "compile")) "link"
    then exists l', extra_args' = Some l' /\ (l' ∉ dom h) /\
                    dom h' = {[l']} ∪ dom h /\ size h' = S (size h)
    else extra_args' = Some l /\ h' = h.
Proof.
  destruct (ne_str (dict_get_default kwargs "mode" (PStr "compile")) "link") eqn:Hm.
  - apply ne_str_true in Hm.
    pose proof (compile_call_copy h code l xs kwargs Hm Hl) as Hc. simpl in Hc.
    eexists _, _. split; [exact Hc|].
    pose proof (is_fresh (dom h)) as Hf.
    assert (Hd : dom (<[fresh (dom h) := xs ++ VS.diag_error_args]>
                        (<[fresh (dom h) := xs]> h))
                 = {[fresh (dom h)]} ∪ dom h).
    { by rewrite insert_insert_eq, dom_insert_L. }
    split; [rewrite Hd; apply union_subseteq_r|].
    exists (fresh (dom h)). split; [done|]. split; [done|]. split; [exact Hd|].
    rewrite insert_insert_eq. apply map_size_insert_None. by apply not_elem_of_dom.
  - apply ne_str_false in Hm. exists h, (Some l).
    split; [by apply compile_call_link|]. by split.
Qed.

Lemma compile_allocates_one_list_witness :
  ({[1%positive := ["/W3"]]} : store) !! 1%positive = Some ["/W3"] /\
  exists h' extra_args',
    compile_call {[1%positive := ["/W3"]]} "int main(void) { return 0; }"
                 (Some 1%positive) ∅
    = Some (h', "int main(void) { return 0; }", extra_args', ∅) /\
    (dom ({[1%positive := ["/W3"]]} : store) ⊆ dom h').
Proof.
  assert (Hl : ({[1%positive := ["/W3"]]} : store) !! 1%positive = Some ["/W3"])
    by reflexivity.
  destruct (compile_allocates_one_list _ "int main(void) { return 0; }" _ _ ∅ Hl)
    as (h' & extra_args' & Hc & Hd & _).
  split; [exact Hl|]. exists h', extra_args'. by split.
Defined.

(** X15.  [compile] is not idempotent outside link mode: given the list
    it passed down, it passes down a third list with the six flags
    twice after the caller's elements, while the caller's list and the
    first copy stay as they were. *)
Theorem compile_twice_repeats_flags {Code : Type} (h : store) (code : Code)
    (l : loc) (xs : list string) (kwargs : gmap string pyval)
    (Hl : h !! l = Some xs)
    (Hmode : dict_get_default kwargs "mode" (PStr "compile") <> PStr "link") :
  exists h1 l1 h2 l2,
    compile_call h code (Some l) kwargs = Some (h1, code, Some l1, kwargs) /\
    compile_call h1 code (Some l1) kwargs = Some (h2, code, Some l2, kwargs) /\
    h2 !! l2 = Some (xs ++ VS.diag_error_args ++ VS.diag_error_args) /\
    h2 !! l1 = Some (xs ++ VS.diag_error_args) /\
    h2 !! l = Some xs /\
    l1 <> l /\ l2 <> l /\ l2 <> l1.
Proof.
  pose proof (compile_call_copy h code l xs kwargs Hmode Hl) as Hc1. simpl in Hc1.
  set (l1 := fresh (dom h)) in *.
  set (h1 := <[l1 := xs ++ VS.diag_error_args]> (<[l1 := xs]> h)) in *.
  assert (Hl1 : h1 !! l1 = Some (xs ++ VS.diag_error_args)) by apply lookup_insert_eq.
  assert (Hl0 : h1 !! l = Some xs) by (by apply fresh_insert_preserves).
  pose proof (compile_call_copy h1 code l1 _ kwargs Hmode Hl1) as Hc2. simpl in Hc2.
  set (l2 := fresh (dom h1)) in *.
  assert (Hf1 : h !! l1 = None) by apply not_elem_of_dom, is_fresh.
  assert (Hf2 : h1 !! l2 = None) by apply not_elem_of_dom, is_fresh.
  eexists h1, l1, _, l2. split; [exact Hc1|]. split; [exact Hc2|].
  split; [by rewrite lookup_insert_eq, <- app_assoc|].
  split; [by apply fresh_insert_preserves|].
  split; [by apply fresh_insert_preserves|].
  repeat split; congruence.
Qed.

Lemma compile_twice_repeats_flags_witness :
  ({[1%positive := ["/W3"]]} : store) !! 1%positive = Some ["/W3"] /\
  dict_get_default ∅ "mode" (PStr "compile") <> PStr "link" /\
  exists h1 l1 h2 l2,
    compile_call {[1%positive := ["/W3"]]} "int main(void) { return 0; }"
                 (Some 1%positive) ∅
    = Some (h1, "int main(void) { return 0; }", Some l1, ∅) /\
    compile_call h1 "int main(void) { return 0; }" (Some l1) ∅
    = Some (h2, "int main(void) { return 0; }", Some l2, ∅) /\
    h2 !! l2 = Some (["/W3"] ++ VS.diag_error_args ++ VS.diag_error_args).
Proof.
  assert (Hl : ({[1%positive := ["/W3"]]} : store) !! 1%positive = Some ["/W3"])
    by reflexivity.
  assert (Hm : dict_get_default ∅ "mode" (PStr "compile") <> PStr "link")
    by discriminate.
  destruct (compile_twice_repeats_flags _ "int main(void) { return 0; }" _ _ ∅ Hl Hm)
    as (h1 & l1 & h2 & l2 & Hc1 & Hc2 & H2 & _).
  split; [exact Hl|]. split; [exact Hm|]. exists h1, l1, h2, l2. by repeat split.
Defined.
